(** * SmartPark front-end: shallow embedding of the occupancy aggregation,
    the reservation workflow, the system status monitor and the map markers.

    Numbers of the TypeScript source ([number]) are modelled as [Z]/[nat]
    where they are counts and as exact rationals [Q] where they may be
    fractional (percentages, coordinates); the occupancy percentage is also
    modelled as an IEEE-754 binary64 double ([Occupancy64]), as JavaScript
    computes it.  Backend calls are modelled by
    their outcome (an error flag or the returned rows), and the writes a
    handler issues are recorded in an explicit write log. *)

From Stdlib Require Import String Ascii List ZArith QArith Qabs Lia Permutation.
From Stdlib Require Floats.SpecFloat.
Import ListNotations.
Open Scope string_scope.

(* ------------------------------------------------------------------ *)
(** ** Data model ([Database['public']['Tables'][...]['Row']]) *)

Record Slot := mkSlot {
  slot_id : string;
  slot_parking_area_id : string;
  slot_number : Z;
  status : string
}.

Record ParkingArea := mkParkingArea {
  area_id : string;
  name : string;
  lat : Q;
  lng : Q;
  total_slots : Z
}.

(** [ParkingAreaWithOccupancy extends ParkingArea] *)
Record ParkingAreaWithOccupancy := mkAreaOcc {
  area : ParkingArea;
  freeSlots : nat;
  occupiedSlots : nat;
  reservedSlots : nat;
  occupancyPercentage : Q
}.

(** Result of [supabase.from('slots').select('*').eq('parking_area_id', ..)]:
    [{ data, error }]. *)
Record SlotsResponse := mkSlotsResponse {
  slots_data : option (list Slot);
  slots_error : bool
}.

(* ------------------------------------------------------------------ *)
(** ** Occupancy aggregation (MapView.tsx, [fetchParkingAreasWithOccupancy]) *)

Module Occupancy.

(** [slots?.filter(s => s.status === st).length || 0] *)
Definition count_status (st : string) (slots : option (list Slot)) : nat :=
  match slots with
  | Some l => length (filter (fun s => String.eqb (status s) st) l)
  | None => 0
  end.

(** [totalSlots > 0 ? ((occupiedSlots + reservedSlots) / totalSlots) * 100 : 0],
    read in exact rationals (the rounded double is [Occupancy64.percentage]). *)
Definition percentage (occupied reserved : nat) (totalSlots : Z) : Q :=
  if (0 <? totalSlots)%Z
  then ((inject_Z (Z.of_nat (occupied + reserved)) / inject_Z totalSlots) * 100)%Q
  else 0%Q.

(** The per-area callback of [areas.map(async (area) => ...)], given the
    slots response of that area. *)
Definition areaWithOccupancy (a : ParkingArea) (resp : SlotsResponse)
  : ParkingAreaWithOccupancy :=
  if slots_error resp then mkAreaOcc a 0 0 0 0%Q
  else
    let slots := slots_data resp in
    let free := count_status "free" slots in
    let occupied := count_status "occupied" slots in
    let reserved := count_status "reserved" slots in
    let totalSlots := total_slots a in
    mkAreaOcc a free occupied reserved (percentage occupied reserved totalSlots).

(** Aggregation of a fetched slot list of one area. *)
Definition aggregate (a : ParkingArea) (slots : list Slot) : ParkingAreaWithOccupancy :=
  areaWithOccupancy a (mkSlotsResponse (Some slots) false).

End Occupancy.

(* ------------------------------------------------------------------ *)
(** ** The same aggregation with JavaScript numbers as IEEE-754 binary64

    [number] is a double: [occupiedSlots + reservedSlots], the division by
    [totalSlots] and the product by [100] are each rounded to nearest-even.
    The doubles are the Standard Library's [spec_float] with [prec = 53]
    and [emax = 1024] (binary64). *)

Module Occupancy64.
Import SpecFloat.

Definition prec : Z := 53.
Definition emax : Z := 1024.

(** An integer [number] literal or [.length]: the double nearest to [z]. *)
Definition of_Z (z : Z) : spec_float := binary_normalize prec emax z 0 false.

(** The real value of a finite double, as a rational; [0] otherwise. *)
Definition to_Q (x : spec_float) : Q :=
  match x with
  | S754_finite s m e =>
      let v := match e with
               | Zpos p => inject_Z (Zpos m * 2 ^ Zpos p)
               | Z0 => inject_Z (Zpos m)
               | Zneg p => Zpos m # (2 ^ p)%positive
               end in
      if s then (- v)%Q else v
  | _ => 0%Q
  end.

Record ParkingAreaWithOccupancy64 := mkAreaOcc64 {
  area64 : ParkingArea;
  freeSlots64 : nat;
  occupiedSlots64 : nat;
  reservedSlots64 : nat;
  occupancyPercentage64 : spec_float
}.

(** [totalSlots > 0 ? ((occupiedSlots + reservedSlots) / totalSlots) * 100 : 0] *)
Definition percentage (occupied reserved : nat) (totalSlots : Z) : spec_float :=
  if (0 <? totalSlots)%Z
  then SFmul prec emax
         (SFdiv prec emax
            (SFadd prec emax (of_Z (Z.of_nat occupied)) (of_Z (Z.of_nat reserved)))
            (of_Z totalSlots))
         (of_Z 100)
  else of_Z 0.

Definition areaWithOccupancy (a : ParkingArea) (resp : SlotsResponse)
  : ParkingAreaWithOccupancy64 :=
  if slots_error resp then mkAreaOcc64 a 0 0 0 (of_Z 0)
  else
    let slots := slots_data resp in
    let free := Occupancy.count_status "free" slots in
    let occupied := Occupancy.count_status "occupied" slots in
    let reserved := Occupancy.count_status "reserved" slots in
    let totalSlots := total_slots a in
    mkAreaOcc64 a free occupied reserved (percentage occupied reserved totalSlots).

Definition aggregate (a : ParkingArea) (slots : list Slot) : ParkingAreaWithOccupancy64 :=
  areaWithOccupancy a (mkSlotsResponse (Some slots) false).

(** Structural equality of doubles. *)
Definition sf_eqb (x y : spec_float) : bool :=
  match x, y with
  | S754_zero s, S754_zero s' => Bool.eqb s s'
  | S754_infinity s, S754_infinity s' => Bool.eqb s s'
  | S754_nan, S754_nan => true
  | S754_finite s m e, S754_finite s' m' e' =>
      Bool.eqb s s' && Pos.eqb m m' && Z.eqb e e'
  | _, _ => false
  end.

(** The integers [lo, lo + n). *)
Definition zrange (lo : Z) (n : nat) : list Z :=
  map (fun i => (lo + Z.of_nat i)%Z) (seq 0 n).

(** The double sum of two counts is the count of the sum. *)
Definition add_exact (o r : Z) : bool :=
  sf_eqb (SFadd prec emax (of_Z o) (of_Z r)) (of_Z (o + r)).

(** [(k / t) * 100] in doubles is within [2^-44] of the rational value. *)
Definition close (k t : Z) : bool :=
  Qle_bool (Qabs (to_Q (SFmul prec emax (SFdiv prec emax (of_Z k) (of_Z t)) (of_Z 100))
                  - inject_Z k * 100 / inject_Z t)) (1 # 2 ^ 44).

Definition check_add (N : Z) : bool :=
  forallb (fun o => forallb (fun r => add_exact o r) (zrange 0 (Z.to_nat (N - o + 1))))
          (zrange 0 (Z.to_nat (N + 1))).

Definition check_close (N : Z) : bool :=
  forallb (fun t => forallb (fun k => close k t) (zrange 0 (Z.to_nat (t + 1))))
          (zrange 1 (Z.to_nat N)).

End Occupancy64.

(* ------------------------------------------------------------------ *)
(** ** Writes and notifications issued by the handlers *)

(** A write sent to the backend collaborator. *)
Inductive Write :=
| InsertReservation (user_id slot_id start_time end_time res_status : string)
| UpdateSlotStatus (slot_id new_status : string)
| UpdateReservationStatus (reservation_id new_status : string).

(** What the user or the console sees: [toast.error], [toast.success],
    [console.error]. *)
Inductive Notice :=
| ToastError (msg : string)
| ToastSuccess (msg : string)
| ConsoleError (msg : string).

(* ------------------------------------------------------------------ *)
(** ** Slot grid (components/slots/SlotGrid.tsx) *)

Module SlotGrid.

(** [disabled={slot.status !== 'free'}] *)
Definition disabled (slot : Slot) : bool := negb (String.eqb (status slot) "free").

(** [onClick={() => slot.status === 'free' && onReserveSlot(slot.id)}]:
    the id passed to [onReserveSlot], if it is called. *)
Definition onClick (slot : Slot) : option string :=
  if String.eqb (status slot) "free" then Some (slot_id slot) else None.

(** A press on the slot button: a disabled button dispatches no click. *)
Definition press (slot : Slot) : option string :=
  if disabled slot then None else onClick slot.

End SlotGrid.

(* ------------------------------------------------------------------ *)
(** ** Dashboard (unnamed/part_000, [Dashboard]) *)

Module Dashboard.

(** The component state that the reservation workflow touches. *)
Record State := mkState {
  user : option string;          (* [useAuth().user], by its id *)
  slots : list Slot;
  userReservations : list string;
  reserveSlotId : string;
  selectedSlotNumber : Z
}.

Definition setReservation (st : State) (rid : string) (n : Z) : State :=
  mkState (user st) (slots st) (userReservations st) rid n.

(** [handleReserveSlot] *)
Definition handleReserveSlot (st : State) (slotId : string) : State :=
  match find (fun s => String.eqb (slot_id s) slotId) (slots st) with
  | Some slot => setReservation st slotId (slot_number slot)
  | None => st
  end.

(** The [SlotGrid] button of [slot] pressed, wired to [handleReserveSlot]. *)
Definition pressSlot (st : State) (slot : Slot) : State :=
  match SlotGrid.press slot with
  | Some id => handleReserveSlot st id
  | None => st
  end.

(** [handleConfirmReservation startTime endTime], where [insertError] is
    the [error] returned by the insert.  The result of the slot update is
    awaited and discarded. *)
Definition handleConfirmReservation (st : State) (startTime endTime : string)
    (insertError : bool) : State * list Write * list Notice :=
  match user st with
  | None => (st, [], [])
  | Some uid =>
      if String.eqb (reserveSlotId st) "" then (st, [], [])
      else
        let rid := reserveSlotId st in
        let ins := InsertReservation uid rid startTime endTime "active" in
        if insertError then (st, [ins], [ToastError "Failed to create reservation"])
        else
          (mkState (user st) (slots st) (userReservations st ++ [rid])%list ""
                   (selectedSlotNumber st),
           [ins; UpdateSlotStatus rid "reserved"],
           [ToastSuccess "Slot reserved successfully!"])
  end.

(** [fetchSlots] completing with [{ data, error }] ([setSlots(data)]). *)
Definition fetchSlotsDone (st : State) (data : option (list Slot)) (error : bool)
  : State * list Notice :=
  if error then (st, [ToastError "Failed to load slots"])
  else match data with
       | Some d => (mkState (user st) d (userReservations st) (reserveSlotId st)
                            (selectedSlotNumber st), [])
       | None => (st, [])
       end.

End Dashboard.

(* ------------------------------------------------------------------ *)
(** ** Profile (unnamed/part_000, [Profile]) *)

Module Profile.

Record Reservation := mkReservation {
  res_id : string;
  res_user_id : string;
  res_slot_id : string;
  res_status : string
}.

Definition cancelled (r : Reservation) : Reservation :=
  mkReservation (res_id r) (res_user_id r) (res_slot_id r) "cancelled".

(** [handleCancelReservation reservationId slotId]; [reservationError] and
    [slotError] are the errors returned by the two updates. *)
Definition handleCancelReservation (reservations : list Reservation)
    (reservationId slotId : string) (reservationError slotError : bool)
  : list Reservation * list Write * list Notice :=
  let w1 := UpdateReservationStatus reservationId "cancelled" in
  if reservationError then
    (reservations, [w1],
     [ConsoleError "Error cancelling reservation:"; ToastError "Failed to cancel reservation"])
  else
    let w2 := UpdateSlotStatus slotId "free" in
    let logs := if slotError then [ConsoleError "Error updating slot status:"] else [] in
    (map (fun res => if String.eqb (res_id res) reservationId then cancelled res else res)
         reservations,
     [w1; w2],
     (logs ++ [ToastSuccess "Reservation cancelled successfully"])%list).

(** [reservations.filter(r => r.status === 'active')] *)
Definition activeReservations (reservations : list Reservation) : list Reservation :=
  filter (fun r => String.eqb (res_status r) "active") reservations.

End Profile.

(* ------------------------------------------------------------------ *)
(** ** System status monitor (components/monitoring/SystemStatusIndicator.tsx) *)

Module Monitor.

Inductive StatusLevel := healthy | warning | critical.

(** The texts [lastSeenText] is set to: a literal, or one of the two
    templates [`${diffMinutes} min ago`] and [`${hours}h ago`]. *)
Inductive LastSeen :=
| Literal (s : string)
| MinAgo (minutes : Z)
| HoursAgo (hours : Z).

(** A [system_status] row; [last_heartbeat] as milliseconds since the epoch
    ([new Date(lastHeartbeat).getTime()]). *)
Record SystemStatus := mkSystemStatus {
  system_id : string;
  last_heartbeat : Z;
  sys_status : string;
  location : option string
}.

Record State := mkState {
  systemId : option string;          (* the [systemId] prop *)
  systemStatus : option SystemStatus;
  statusLevel : StatusLevel;
  lastSeenText : LastSeen
}.

Definition targetSystemId (systemId : option string) : string :=
  match systemId with
  | Some id => if String.eqb id "" then "parking_monitor_tech_park_whitefield" else id
  | None => "parking_monitor_tech_park_whitefield"
  end.

(** [calculateStatusLevel lastHeartbeat currentStatus] at time [now]: the
    new [statusLevel] and [lastSeenText]. *)
Definition calculateStatusLevel (now lastHeartbeat : Z) (currentStatus : string)
  : StatusLevel * LastSeen :=
  let diffMinutes := ((now - lastHeartbeat) / (1000 * 60))%Z in
  if String.eqb currentStatus "online" then
    (healthy, if (diffMinutes =? 0)%Z then Literal "Just now" else MinAgo diffMinutes)
  else if String.eqb currentStatus "offline" then
    (critical,
     if (diffMinutes <? 60)%Z then MinAgo diffMinutes
     else HoursAgo (diffMinutes / 60)%Z)
  else (critical, Literal "Unknown").

Definition applyCalc (st : State) (now : Z) (row : SystemStatus) : State :=
  let '(lvl, txt) := calculateStatusLevel now (last_heartbeat row) (sys_status row) in
  mkState (systemId st) (Some row) lvl txt.

(** Outcome of [supabase.from('system_status').select('*')
    .eq('system_id', target).single()]: a [{ data, error }] response, or an
    exception thrown by the call. *)
Inductive FetchOutcome :=
| Response (data : option SystemStatus) (error : bool)
| Thrown.

(** PostgREST's [.single()]: an error unless exactly one row matches. *)
Definition single (table : list SystemStatus) (target : string) : FetchOutcome :=
  match filter (fun r => String.eqb (system_id r) target) table with
  | [r] => Response (Some r) false
  | _ => Response None true
  end.

(** [fetchSystemStatus] completing with [outcome] at time [now]. *)
Definition fetchSystemStatus (st : State) (now : Z) (outcome : FetchOutcome) : State :=
  match outcome with
  | Response data error =>
      if error then mkState (systemId st) None critical (Literal "Never")
      else match data with
           | Some row => applyCalc st now row
           | None => st
           end
  | Thrown => mkState (systemId st) None critical (Literal "Error")
  end.

(** The [postgres_changes] callback with [payload.new]. *)
Definition onPayload (st : State) (now : Z) (payloadNew : option SystemStatus) : State :=
  match payloadNew with
  | Some row =>
      if String.eqb (system_id row) (targetSystemId (systemId st))
      then applyCalc st now row else st
  | None => st
  end.

(** The 30 s [setInterval] callback. *)
Definition onTick (st : State) (now : Z) : State :=
  match systemStatus st with
  | Some row =>
      if String.eqb (sys_status row) "" then st
      else let '(lvl, txt) := calculateStatusLevel now (last_heartbeat row) (sys_status row) in
           mkState (systemId st) (systemStatus st) lvl txt
  | None => st
  end.

(** The [useEffect] on [[systemId]]: reset, then the fetch is in flight. *)
Definition onSystemIdChange (st : State) (newId : option string) : State :=
  mkState newId None critical (Literal "Loading...").

(** The initial [useState] values. *)
Definition init (systemId : option string) : State :=
  mkState systemId None critical (Literal "").

Inductive Event :=
| EvFetch (now : Z) (outcome : FetchOutcome)
| EvPayload (now : Z) (payloadNew : option SystemStatus)
| EvTick (now : Z)
| EvSystemId (newId : option string).

Definition step (st : State) (ev : Event) : State :=
  match ev with
  | EvFetch now o => fetchSystemStatus st now o
  | EvPayload now p => onPayload st now p
  | EvTick now => onTick st now
  | EvSystemId id => onSystemIdChange st id
  end.

Definition run (st : State) (evs : list Event) : State := fold_left step evs st.

End Monitor.

(* ------------------------------------------------------------------ *)
(** ** Map markers (unnamed/part_001, [MapTilerMap]) *)

Module Markers.

(** A parking area as the marker loop reads it; [freeSlots] may be
    [null]/[undefined] at run time, which the loop tests for. *)
Record AreaValue := mkAreaValue {
  av_id : string;
  av_name : string;
  av_lat : Q;
  av_lng : Q;
  av_freeSlots : option nat;
  av_occupancyPercentage : Q
}.

Record Marker := mkMarker {
  mk_area_id : string;
  mk_lat : Q;
  mk_lng : Q;
  mk_color : string;
  mk_label : nat
}.

(** JavaScript truthiness of a number and of a string. *)
Definition truthyQ (x : Q) : bool := negb (Qeq_bool x 0).
Definition truthyS (x : string) : bool := negb (String.eqb x "").

(** [area.occupancyPercentage > 80 ? '#EF4444' : ... > 50 ? '#F59E0B' : '#10B981'] *)
Definition occupancyColor (p : Q) : string :=
  if negb (Qle_bool p 80) then "#EF4444"
  else if negb (Qle_bool p 50) then "#F59E0B"
  else "#10B981".

(** One iteration of [parkingAreas.forEach((area) => ...)]: the markers
    layer before and after it. *)
Definition addAreaMarker (layer : list Marker) (oarea : option AreaValue) : list Marker :=
  match oarea with
  | None => layer
  | Some area =>
      if negb (truthyQ (av_lat area)) || negb (truthyQ (av_lng area))
         || negb (truthyS (av_name area)) then layer
      else match av_freeSlots area with
           | None => layer
           | Some n =>
               (layer ++ [mkMarker (av_id area) (av_lat area) (av_lng area)
                                  (occupancyColor (av_occupancyPercentage area)) n])%list
           end
  end.

(** The loop over [parkingAreas], filling a fresh [L.layerGroup()]. *)
Definition markerLoop (parkingAreas : list (option AreaValue)) : list Marker :=
  fold_left addAreaMarker parkingAreas [].

(** Double-tap handling of one marker ([handleMarkerClick]). *)
Inductive Output := OpenPopup | AreaSelect (areaId : string).

Record ClickState := mkClickState {
  clickCount : nat;
  clickTimeout : option Z     (* due time of the pending [setTimeout] *)
}.

Definition idle : ClickState := mkClickState 0 None.

(** The pending 300 ms timer firing if it is due at time [t];
    [onMap] is [marker && map.hasLayer(marker)]. *)
Definition fireDue (onMap : bool) (t : Z) (st : ClickState) : ClickState * list Output :=
  match clickTimeout st with
  | Some due =>
      if (due <=? t)%Z
      then (mkClickState 0 None, if onMap then [OpenPopup] else [])
      else (st, [])
  | None => (st, [])
  end.

(** [handleMarkerClick] at time [t]. *)
Definition handleMarkerClick (areaId : string) (t : Z) (st : ClickState)
  : ClickState * list Output :=
  let c := S (clickCount st) in
  if Nat.eqb c 1 then (mkClickState c (Some (t + 300)%Z), [])
  else if Nat.eqb c 2 then (mkClickState 0 None, [AreaSelect areaId])
  else (mkClickState c (clickTimeout st), []).

(** A sequence of clicks at the given times; afterwards every pending timer
    is allowed to fire. *)
Fixpoint runClicks (onMap : bool) (areaId : string) (st : ClickState) (ts : list Z)
  : ClickState * list Output :=
  match ts with
  | [] =>
      match clickTimeout st with
      | Some due => fireDue onMap due st
      | None => (st, [])
      end
  | t :: ts' =>
      let '(st1, o1) := fireDue onMap t st in
      let '(st2, o2) := handleMarkerClick areaId t st1 in
      let '(st3, o3) := runClicks onMap areaId st2 ts' in
      (st3, (o1 ++ o2 ++ o3)%list)
  end.

End Markers.

(* ------------------------------------------------------------------ *)
(** ** MapView's fetch of all areas (MapView.tsx, [fetchParkingAreasWithOccupancy]) *)

Module MapViewPage.
Import Occupancy.

(** The areas query answered [{ data: areas, error: areasError }], and
    [slotsFor id] the slots query of the area with id [id]; the result is
    the new [parkingAreasWithOccupancy] and the notifications. *)
Definition fetchParkingAreasWithOccupancy (prev : list ParkingAreaWithOccupancy)
    (areas : option (list ParkingArea)) (areasError : bool)
    (slotsFor : string -> SlotsResponse)
  : list ParkingAreaWithOccupancy * list Notice :=
  if areasError then (prev, [ToastError "Failed to load parking areas"])
  else match areas with
       | None => ([], [])
       | Some l => (map (fun a => areaWithOccupancy a (slotsFor (area_id a))) l, [])
       end.

End MapViewPage.

(* ------------------------------------------------------------------ *)
(** ** Dashboard: area selection, occupancy cards, monitor id (unnamed/part_000) *)

Module DashboardView.

(** [fetchParkingAreas] completing: the current [selectedAreaId] (as the
    closure sees it), [searchParams.get('area')], and the response.  The
    result is [Some] of the new [parkingAreas] when [setParkingAreas] is
    called, the new [selectedAreaId], and the notifications. *)
Definition fetchParkingAreasDone (selectedAreaId : string) (areaFromUrl : option string)
    (data : option (list ParkingArea)) (error : bool)
  : option (list ParkingArea) * string * list Notice :=
  if error then (None, selectedAreaId, [ToastError "Failed to load parking areas"])
  else match data with
       | None => (None, selectedAreaId, [])
       | Some d =>
           let fromUrl :=
             match areaFromUrl with
             | Some u =>
                 if String.eqb u "" then None
                 else match find (fun a => String.eqb (area_id a) u) d with
                      | Some _ => Some u
                      | None => None
                      end
             | None => None
             end in
           match fromUrl with
           | Some u => (Some d, u, [])
           | None =>
               match d with
               | a0 :: _ => if String.eqb selectedAreaId "" then (Some d, area_id a0, [])
                            else (Some d, selectedAreaId, [])
               | [] => (Some d, selectedAreaId, [])
               end
           end
       end.

(** [occupancyData] *)
Definition occupancyData (slots : list Slot) : nat * nat * nat :=
  (length (filter (fun s => String.eqb (status s) "free") slots),
   length (filter (fun s => String.eqb (status s) "occupied") slots),
   length (filter (fun s => String.eqb (status s) "reserved") slots)).

(** Strings are sequences of Latin-1 code units (U+0000..U+00FF). *)

(** [String.prototype.toLowerCase] on one code unit of that range:
    A-Z, U+00C0..U+00D6 and U+00D8..U+00DE move down by 32. *)
Definition lowerChar (c : ascii) : ascii :=
  let n := nat_of_ascii c in
  if (((65 <=? n) && (n <=? 90)) || ((192 <=? n) && (n <=? 214))
      || ((216 <=? n) && (n <=? 222)))%nat
  then ascii_of_nat (n + 32)%nat else c.

Fixpoint toLowerCase (s : string) : string :=
  match s with
  | EmptyString => EmptyString
  | String c r => String (lowerChar c) (toLowerCase r)
  end.

(** The regular-expression class [\s] on that range: TAB, LF, VT, FF, CR,
    SPACE and NO-BREAK SPACE. *)
Definition isSpace (c : ascii) : bool :=
  let n := nat_of_ascii c in
  (((9 <=? n) && (n <=? 13)) || (n =? 32) || (n =? 160))%nat.

(** [.replace(/\s+/g, '_')]: each maximal run of [\s] becomes one ['_'];
    [inRun] tells whether the previous code unit was in a run. *)
Fixpoint replaceSpaces (inRun : bool) (s : string) : string :=
  match s with
  | EmptyString => EmptyString
  | String c r =>
      if isSpace c then
        if inRun then replaceSpaces true r else String "_" (replaceSpaces true r)
      else String c (replaceSpaces false r)
  end.

Definition slug (name : string) : string := replaceSpaces false (toLowerCase name).

(** The [systemId] passed to [SystemStatusIndicator]. *)
Definition monitorSystemId (selectedArea : option ParkingArea) : option string :=
  match selectedArea with
  | Some a => Some ("parking_monitor_" ++ slug (name a))
  | None => None
  end.

End DashboardView.

(* ------------------------------------------------------------------ *)
(** ** Profile lists (unnamed/part_000, [Profile]) *)

Module ProfileView.
Import Profile.

(** [reservations.filter(r => r.status !== 'active')] *)
Definition pastReservations (reservations : list Reservation) : list Reservation :=
  filter (fun r => negb (String.eqb (res_status r) "active")) reservations.

(** The history card: [pastReservations.slice(0, 10)]. *)
Definition shownHistory (reservations : list Reservation) : list Reservation :=
  firstn 10 (pastReservations reservations).

End ProfileView.

(* ------------------------------------------------------------------ *)
(** ** Map component: the markers effect (unnamed/part_001) *)

Module MapComponent.
Import Markers.


End MapComponent.

(* ------------------------------------------------------------------ *)
(** ** The marker renderer's contract, as the spec words it *)

Module MarkerContract.
Import Markers.

(** One area's contribution to the layer, following the wording of the
    renderer's contract: skipped when [lat], [lng] or [name] is falsy or
    [freeSlots] is null, else one marker red above 80 %, amber above 50 %,
    green otherwise, labelled with the free-slot count. *)
Definition thresholdColor (p : Q) : string :=
  if Qle_bool p 50 then "#10B981" else if Qle_bool p 80 then "#F59E0B" else "#EF4444".

Definition markerOf (oarea : option AreaValue) : list Marker :=
  match oarea with
  | None => []
  | Some a =>
      if Qeq_bool (av_lat a) 0 || Qeq_bool (av_lng a) 0 || String.eqb (av_name a) ""
      then []
      else match av_freeSlots a with
           | None => []
           | Some n => [mkMarker (av_id a) (av_lat a) (av_lng a)
                                 (thresholdColor (av_occupancyPercentage a)) n]
           end
  end.

End MarkerContract.

(* ------------------------------------------------------------------ *)
(** ** Predicates used to state properties of the code *)

Module Predicates.

(** Every code unit of [s] satisfies [p]. *)
Fixpoint forallChars (p : ascii -> bool) (s : string) : bool :=
  match s with
  | EmptyString => true
  | String c r => p c && forallChars p r
  end.

(** A code unit [toLowerCase] leaves as it is, and one outside [\s]. *)
Definition lowerFixed (c : ascii) : bool :=
  Ascii.eqb (DashboardView.lowerChar c) c.
Definition notSpace (c : ascii) : bool := negb (DashboardView.isSpace c).

End Predicates.

(* ------------------------------------------------------------------ *)
(** ** Concrete inputs used by the examples below *)

Module Fixtures.

Definition sl (st : string) : Slot := mkSlot "s" "a" 1 st.

(** The scenario of the spec: ten slots, 6 free, 3 occupied, 1 reserved. *)
Definition area10 : ParkingArea := mkParkingArea "a" "Area" 1 1 10.
Definition scen : list Slot :=
  [sl "free"; sl "free"; sl "free"; sl "free"; sl "free"; sl "free";
   sl "occupied"; sl "occupied"; sl "occupied"; sl "reserved"].


(** An area of one hundred slots, seven of them occupied. *)
Definition area100 : ParkingArea := mkParkingArea "c" "Hundred" 1 1 100.
Definition seven_occupied : list Slot := List.repeat (sl "occupied") 7.

Definition st0 : Dashboard.State :=
  Dashboard.mkState (Some "u1") [mkSlot "s1" "a" 1 "free"; mkSlot "s2" "a" 2 "occupied"]
                    ["s9"] "s1" 1.

Definition res0 : list Profile.Reservation :=
  [Profile.mkReservation "r1" "u1" "s1" "active";
   Profile.mkReservation "r2" "u1" "s2" "active";
   Profile.mkReservation "r3" "u1" "s3" "completed"].

Definition row_online : Monitor.SystemStatus :=
  Monitor.mkSystemStatus "parking_monitor_tech_park_whitefield" 0 "online" None.

Definition area_ok : Markers.AreaValue :=
  Markers.mkAreaValue "a1" "Tech Park" (129 # 10) (777 # 10) (Some 4%nat) 85.
Definition area_zero_lat : Markers.AreaValue :=
  Markers.mkAreaValue "a2" "Equator" 0 (777 # 10) (Some 4%nat) 10.

Definition row_other : Monitor.SystemStatus :=
  Monitor.mkSystemStatus "other_system" 0 "online" None.

End Fixtures.

(* ================================================================== *)
(** * Properties *)

Module OccupancyFacts.
Import Occupancy Fixtures.


Example scenario_counts :
  freeSlots (aggregate area10 scen) = 6%nat /\
  occupiedSlots (aggregate area10 scen) = 3%nat /\
  reservedSlots (aggregate area10 scen) = 1%nat /\
  (occupancyPercentage (aggregate area10 scen) == 40)%Q.
Proof. vm_compute. repeat split; reflexivity. Qed.


Lemma count3_le (l : list Slot) :
  (length (filter (fun s => String.eqb (status s) "free") l)
   + length (filter (fun s => String.eqb (status s) "occupied") l)
   + length (filter (fun s => String.eqb (status s) "reserved") l) <= length l)%nat.
Proof.
  induction l as [|s l IH]; simpl; [lia|].
  destruct (String.eqb (status s) "free") eqn:Ef;
  destruct (String.eqb (status s) "occupied") eqn:Eo;
  destruct (String.eqb (status s) "reserved") eqn:Er; simpl;
  try (apply String.eqb_eq in Ef); try (apply String.eqb_eq in Eo);
  try (apply String.eqb_eq in Er);
  try congruence; lia.
Qed.



Lemma sf_eqb_eq (x y : SpecFloat.spec_float) : Occupancy64.sf_eqb x y = true -> x = y.
Proof.
  destruct x as [s|s| |s m e], y as [s'|s'| |s' m' e']; simpl; try discriminate;
  intros H.
  - apply Bool.eqb_prop in H. now subst.
  - apply Bool.eqb_prop in H. now subst.
  - reflexivity.
  - apply andb_prop in H as [H H3]. apply andb_prop in H as [H1 H2].
    apply Bool.eqb_prop in H1. apply Pos.eqb_eq in H2. apply Z.eqb_eq in H3.
    now subst.
Qed.

Lemma zrange_in (lo : Z) (n : nat) (z : Z) :
  (lo <= z < lo + Z.of_nat n)%Z -> In z (Occupancy64.zrange lo n).
Proof.
  intros Hz. unfold Occupancy64.zrange. apply in_map_iff.
  exists (Z.to_nat (z - lo)). split; [lia|]. apply in_seq. lia.
Qed.

Lemma check_add_100 : Occupancy64.check_add 100 = true.
Proof. vm_compute. reflexivity. Qed.

Lemma check_close_100 : Occupancy64.check_close 100 = true.
Proof. vm_compute. reflexivity. Qed.

Lemma add_exact_le (o r : Z) :
  (0 <= o)%Z -> (0 <= r)%Z -> (o + r <= 100)%Z ->
  SpecFloat.SFadd Occupancy64.prec Occupancy64.emax (Occupancy64.of_Z o) (Occupancy64.of_Z r)
  = Occupancy64.of_Z (o + r).
Proof.
  intros Ho Hr Hs. apply sf_eqb_eq.
  pose proof check_add_100 as C. unfold Occupancy64.check_add in C.
  rewrite forallb_forall in C.
  specialize (C o (zrange_in 0 (Z.to_nat (100 + 1)) o ltac:(lia))).
  rewrite forallb_forall in C.
  exact (C r (zrange_in 0 (Z.to_nat (100 - o + 1)) r ltac:(lia))).
Qed.

Lemma close_le (k t : Z) :
  (0 <= k <= t)%Z -> (1 <= t <= 100)%Z -> Occupancy64.close k t = true.
Proof.
  intros Hk Ht.
  pose proof check_close_100 as C. unfold Occupancy64.check_close in C.
  rewrite forallb_forall in C.
  specialize (C t (zrange_in 1 (Z.to_nat 100) t ltac:(lia))).
  rewrite forallb_forall in C.
  exact (C k (zrange_in 0 (Z.to_nat (t + 1)) k ltac:(lia))).
Qed.

(** Claim C1, as stated: the percentage is a double, and with [total = 100]
    and seven occupied slots [((7 / 100) * 100)] is not [100 * 7 / 100 = 7]
    (it is [7.000000000000001]). *)
Lemma percentage_not_exact :
  (0 < total_slots area100)%Z /\
  Occupancy64.occupiedSlots64 (Occupancy64.aggregate area100 seven_occupied) = 7%nat /\
  ~ (Occupancy64.to_Q
       (Occupancy64.occupancyPercentage64 (Occupancy64.aggregate area100 seven_occupied))
     == 100 * 7 / 100)%Q.
Proof.
  split; [reflexivity|]. split; [reflexivity|].
  vm_compute. discriminate.
Qed.

(** Claim C1, amended: the counts are exactly the numbers of slots whose
    status is ['free'], ['occupied'] and ['reserved']; the percentage is
    [+0] when [total <= 0] (in particular [total = 0]) whatever the slots
    are; when [total > 0] it is the double [((occupied + reserved) / total) * 100],
    each operation rounded to nearest, which for capacities up to 100 is
    within [2^-44] of [100 * (occupied + reserved) / total]. *)
Theorem aggregate64_spec (a : ParkingArea) (slots : list Slot) :
  let r := Occupancy64.aggregate a slots in
  let k := Z.of_nat (Occupancy64.occupiedSlots64 r + Occupancy64.reservedSlots64 r) in
  Occupancy64.freeSlots64 r = length (filter (fun s => String.eqb (status s) "free") slots) /\
  Occupancy64.occupiedSlots64 r = length (filter (fun s => String.eqb (status s) "occupied") slots) /\
  Occupancy64.reservedSlots64 r = length (filter (fun s => String.eqb (status s) "reserved") slots) /\
  ((total_slots a <= 0)%Z -> Occupancy64.occupancyPercentage64 r = SpecFloat.S754_zero false) /\
  ((0 < total_slots a)%Z ->
     Occupancy64.occupancyPercentage64 r
     = SpecFloat.SFmul Occupancy64.prec Occupancy64.emax
         (SpecFloat.SFdiv Occupancy64.prec Occupancy64.emax
            (SpecFloat.SFadd Occupancy64.prec Occupancy64.emax
               (Occupancy64.of_Z (Z.of_nat (Occupancy64.occupiedSlots64 r)))
               (Occupancy64.of_Z (Z.of_nat (Occupancy64.reservedSlots64 r))))
            (Occupancy64.of_Z (total_slots a)))
         (Occupancy64.of_Z 100)) /\
  ((0 < total_slots a <= 100)%Z -> (k <= total_slots a)%Z ->
     (Qabs (Occupancy64.to_Q (Occupancy64.occupancyPercentage64 r)
            - 100 * inject_Z k / inject_Z (total_slots a)) <= 1 # 2 ^ 44)%Q).
Proof.
  cbn zeta. unfold Occupancy64.aggregate, Occupancy64.areaWithOccupancy.
  cbn [slots_error slots_data Occupancy64.freeSlots64 Occupancy64.occupiedSlots64
       Occupancy64.reservedSlots64 Occupancy64.occupancyPercentage64].
  unfold count_status.
  set (o := length (filter (fun s => String.eqb (status s) "occupied") slots)).
  set (r := length (filter (fun s => String.eqb (status s) "reserved") slots)).
  repeat split.
  - intros Ht. unfold Occupancy64.percentage.
    replace (0 <? total_slots a)%Z with false by (symmetry; apply Z.ltb_ge; lia).
    reflexivity.
  - intros Ht. unfold Occupancy64.percentage.
    apply Z.ltb_lt in Ht. rewrite Ht. reflexivity.
  - intros Ht Hk. unfold Occupancy64.percentage.
    replace (0 <? total_slots a)%Z with true by (symmetry; apply Z.ltb_lt; lia).
    rewrite add_exact_le by lia. rewrite <- Nat2Z.inj_add.
    pose proof (close_le (Z.of_nat (o + r)) (total_slots a) ltac:(lia) ltac:(lia)) as C.
    unfold Occupancy64.close in C. apply Qle_bool_imp_le in C.
    setoid_replace (100 * inject_Z (Z.of_nat (o + r)) / inject_Z (total_slots a))%Q
      with (inject_Z (Z.of_nat (o + r)) * 100 / inject_Z (total_slots a))%Q
      by (unfold Qdiv; ring).
    exact C.
Qed.

Lemma aggregate64_spec_witness :
  (total_slots (mkParkingArea "z" "Z" 1 1 0) <= 0)%Z /\ (0 < total_slots area10 <= 100)%Z /\
  (let r := Occupancy64.aggregate area10 scen in
   let k := Z.of_nat (Occupancy64.occupiedSlots64 r + Occupancy64.reservedSlots64 r) in
   Occupancy64.freeSlots64 r = length (filter (fun s => String.eqb (status s) "free") scen) /\
   Occupancy64.occupiedSlots64 r = length (filter (fun s => String.eqb (status s) "occupied") scen) /\
   Occupancy64.reservedSlots64 r = length (filter (fun s => String.eqb (status s) "reserved") scen) /\
   ((total_slots area10 <= 0)%Z -> Occupancy64.occupancyPercentage64 r = SpecFloat.S754_zero false) /\
   ((0 < total_slots area10)%Z ->
      Occupancy64.occupancyPercentage64 r
      = SpecFloat.SFmul Occupancy64.prec Occupancy64.emax
          (SpecFloat.SFdiv Occupancy64.prec Occupancy64.emax
             (SpecFloat.SFadd Occupancy64.prec Occupancy64.emax
                (Occupancy64.of_Z (Z.of_nat (Occupancy64.occupiedSlots64 r)))
                (Occupancy64.of_Z (Z.of_nat (Occupancy64.reservedSlots64 r))))
             (Occupancy64.of_Z (total_slots area10)))
          (Occupancy64.of_Z 100)) /\
   ((0 < total_slots area10 <= 100)%Z -> (k <= total_slots area10)%Z ->
      (Qabs (Occupancy64.to_Q (Occupancy64.occupancyPercentage64 r)
             - 100 * inject_Z k / inject_Z (total_slots area10)) <= 1 # 2 ^ 44)%Q)).
Proof.
  split; [simpl; lia|]. split; [simpl; lia|].
  exact (aggregate64_spec area10 scen).
Defined.




End OccupancyFacts.

Module ReservationFacts.
Import Fixtures.

(** Claim C3: a slot whose status is not ['free'] has a disabled button,
    its click handler does not call [onReserveSlot], and pressing it leaves
    the dashboard state unchanged: no reservation dialog is opened for it,
    so no write is issued from that press.  The guard is evaluated on the
    status the grid shows at the time of the press. *)
Theorem press_nonfree_rejected (st : Dashboard.State) (slot : Slot)
    (H : status slot <> "free") :
  SlotGrid.disabled slot = true /\
  SlotGrid.onClick slot = None /\
  SlotGrid.press slot = None /\
  Dashboard.pressSlot st slot = st.
Proof.
  unfold Dashboard.pressSlot, SlotGrid.press, SlotGrid.disabled, SlotGrid.onClick.
  apply String.eqb_neq in H. rewrite H. simpl. auto.
Qed.

Lemma press_nonfree_rejected_witness :
  status (mkSlot "s2" "a" 2 "occupied") <> "free" /\
  (SlotGrid.disabled (mkSlot "s2" "a" 2 "occupied") = true /\
   SlotGrid.onClick (mkSlot "s2" "a" 2 "occupied") = None /\
   SlotGrid.press (mkSlot "s2" "a" 2 "occupied") = None /\
   Dashboard.pressSlot st0 (mkSlot "s2" "a" 2 "occupied") = st0).
Proof.
  split; [simpl; discriminate|].
  apply press_nonfree_rejected. simpl. discriminate.
Defined.

(** Claim C4, as stated: after a successful confirmation the local slot
    list still shows the reserved slot as ['free']; the handler does not
    update the local slot state. *)
Lemma confirm_leaves_local_slot_free :
  let '(st', _, _) := Dashboard.handleConfirmReservation st0 "t0" "t1" false in
  map status (filter (fun s => String.eqb (slot_id s) "s1") (Dashboard.slots st'))
  = ["free"].
Proof. reflexivity. Qed.

(** Claim C4, amended: with a logged-in user and a selected slot id, a
    successful insert is followed by a write of the slot's status to
    ['reserved']; exactly that slot id is appended to the local
    user-reservation list and the dialog's slot id is cleared, without a
    fetch; the local slot list is left as it was (it changes only when the
    slots subscription re-fetches). *)
Theorem confirm_success_updates (st : Dashboard.State) (uid startTime endTime : string)
    (Hu : Dashboard.user st = Some uid) (Hr : Dashboard.reserveSlotId st <> "") :
  let '(st', ws, _) := Dashboard.handleConfirmReservation st startTime endTime false in
  In (UpdateSlotStatus (Dashboard.reserveSlotId st) "reserved") ws /\
  Dashboard.userReservations st'
    = (Dashboard.userReservations st ++ [Dashboard.reserveSlotId st])%list /\
  length (Dashboard.userReservations st') = S (length (Dashboard.userReservations st)) /\
  Dashboard.reserveSlotId st' = "" /\
  Dashboard.slots st' = Dashboard.slots st.
Proof.
  unfold Dashboard.handleConfirmReservation. rewrite Hu.
  apply String.eqb_neq in Hr. rewrite Hr. simpl.
  rewrite length_app. simpl. repeat split; auto; lia.
Qed.

Lemma confirm_success_updates_witness :
  Dashboard.user st0 = Some "u1" /\ Dashboard.reserveSlotId st0 <> "" /\
  (let '(st', ws, _) := Dashboard.handleConfirmReservation st0 "t0" "t1" false in
   In (UpdateSlotStatus (Dashboard.reserveSlotId st0) "reserved") ws /\
   Dashboard.userReservations st'
     = (Dashboard.userReservations st0 ++ [Dashboard.reserveSlotId st0])%list /\
   length (Dashboard.userReservations st') = S (length (Dashboard.userReservations st0)) /\
   Dashboard.reserveSlotId st' = "" /\
   Dashboard.slots st' = Dashboard.slots st0).
Proof.
  split; [reflexivity|]. split; [simpl; discriminate|].
  apply (confirm_success_updates st0 "u1"); [reflexivity | simpl; discriminate].
Defined.

(** Claim C5: confirming issues the insert of an ['active'] reservation,
    then the update of the slot to ['reserved']; when the insert fails the
    user gets an error toast, the slot update is not issued and the state
    (user-reservation list, dialog slot id) is unchanged. *)
Theorem confirm_writes_in_order (st : Dashboard.State) (uid startTime endTime : string)
    (Hu : Dashboard.user st = Some uid) (Hr : Dashboard.reserveSlotId st <> "") :
  let rid := Dashboard.reserveSlotId st in
  snd (fst (Dashboard.handleConfirmReservation st startTime endTime false))
    = [InsertReservation uid rid startTime endTime "active"; UpdateSlotStatus rid "reserved"] /\
  Dashboard.handleConfirmReservation st startTime endTime true
    = (st, [InsertReservation uid rid startTime endTime "active"],
       [ToastError "Failed to create reservation"]).
Proof.
  cbn zeta. unfold Dashboard.handleConfirmReservation. rewrite Hu.
  apply String.eqb_neq in Hr. rewrite Hr. split; reflexivity.
Qed.

Lemma confirm_writes_in_order_witness :
  Dashboard.user st0 = Some "u1" /\ Dashboard.reserveSlotId st0 <> "" /\
  (let rid := Dashboard.reserveSlotId st0 in
   snd (fst (Dashboard.handleConfirmReservation st0 "t0" "t1" false))
     = [InsertReservation "u1" rid "t0" "t1" "active"; UpdateSlotStatus rid "reserved"] /\
   Dashboard.handleConfirmReservation st0 "t0" "t1" true
     = (st0, [InsertReservation "u1" rid "t0" "t1" "active"],
        [ToastError "Failed to create reservation"])).
Proof.
  split; [reflexivity|]. split; [simpl; discriminate|].
  apply (confirm_writes_in_order st0 "u1"); [reflexivity | simpl; discriminate].
Defined.

Lemma active_after_cancel (rs : list Profile.Reservation) (rid : string) :
  Profile.activeReservations
    (map (fun res => if String.eqb (Profile.res_id res) rid then Profile.cancelled res else res) rs)
  = filter (fun r => negb (String.eqb (Profile.res_id r) rid)) (Profile.activeReservations rs).
Proof.
  induction rs as [|r rs IH]; [reflexivity|].
  unfold Profile.activeReservations in *. simpl.
  destruct (String.eqb (Profile.res_id r) rid) eqn:E; simpl.
  - rewrite IH. destruct (String.eqb (Profile.res_status r) "active"); simpl;
      [rewrite E|]; reflexivity.
  - destruct (String.eqb (Profile.res_status r) "active"); simpl; [rewrite E|]; simpl;
      rewrite IH; reflexivity.
Qed.

Lemma not_in_filtered (l : list Profile.Reservation) (rid : string) :
  ~ In rid (map Profile.res_id (filter (fun r => negb (String.eqb (Profile.res_id r) rid)) l)).
Proof.
  induction l as [|r l IH]; simpl; [auto|].
  destruct (String.eqb (Profile.res_id r) rid) eqn:E; simpl; auto.
  intros [H|H]; [apply String.eqb_neq in E; congruence | contradiction].
Qed.

(** Claim C6: cancelling writes the reservation's status ['cancelled'] and
    then the slot's status ['free'], and drops the reservation from the
    active list; a failed reservation update aborts before any slot write;
    a failed slot update is only logged: the writes, the local list (marked
    ['cancelled']) and the success message are as without the failure. *)
Theorem cancel_spec (rs : list Profile.Reservation) (rid sid : string) :
  (forall slotError,
     Profile.handleCancelReservation rs rid sid true slotError
     = (rs, [UpdateReservationStatus rid "cancelled"],
        [ConsoleError "Error cancelling reservation:"; ToastError "Failed to cancel reservation"]))
  /\
  (forall slotError,
     let '(rs', ws, _) := Profile.handleCancelReservation rs rid sid false slotError in
     ws = [UpdateReservationStatus rid "cancelled"; UpdateSlotStatus sid "free"] /\
     (forall r, In r rs' -> Profile.res_id r = rid -> Profile.res_status r = "cancelled") /\
     Profile.activeReservations rs'
       = filter (fun r => negb (String.eqb (Profile.res_id r) rid))
                (Profile.activeReservations rs) /\
     ~ In rid (map Profile.res_id (Profile.activeReservations rs')))
  /\
  fst (Profile.handleCancelReservation rs rid sid false true)
    = fst (Profile.handleCancelReservation rs rid sid false false) /\
  snd (Profile.handleCancelReservation rs rid sid false true)
    = [ConsoleError "Error updating slot status:"; ToastSuccess "Reservation cancelled successfully"].
Proof.
  split; [intros; reflexivity|]. split; [|split; reflexivity].
  intros slotError. unfold Profile.handleCancelReservation. simpl.
  split; [reflexivity|]. split; [|split].
  - intros r Hin Hid. apply in_map_iff in Hin. destruct Hin as [x [Hx _]].
    destruct (String.eqb (Profile.res_id x) rid) eqn:E; subst r; [reflexivity|].
    apply String.eqb_neq in E. contradiction.
  - apply active_after_cancel.
  - rewrite active_after_cancel. apply not_in_filtered.
Qed.

End ReservationFacts.

Module MonitorFacts.
Import Monitor Fixtures.

(** Claim C7: a fetched record is classified [healthy] exactly when its
    status is ['online'], whatever the heartbeat age, and [critical] for
    ['offline'] and every other status; when no record matches the
    [systemId], [.single()] errors and the result is [critical] with
    last-seen text ['Never']. *)
Theorem classify_spec (st : State) (now : Z) (row : SystemStatus)
    (table : list SystemStatus) :
  statusLevel (fetchSystemStatus st now (Response (Some row) false))
    = (if String.eqb (sys_status row) "online" then healthy else critical) /\
  (forall hb, fst (calculateStatusLevel now hb "online") = healthy) /\
  (forall hb, fst (calculateStatusLevel now hb "offline") = critical) /\
  (forall hb s, s <> "online" -> fst (calculateStatusLevel now hb s) = critical) /\
  (filter (fun r => String.eqb (system_id r) (targetSystemId (systemId st))) table = [] ->
   let st' := fetchSystemStatus st now (single table (targetSystemId (systemId st))) in
   statusLevel st' = critical /\ lastSeenText st' = Literal "Never").
Proof.
  split; [|split; [|split; [|split]]].
  - simpl. unfold applyCalc, calculateStatusLevel.
    destruct (String.eqb (sys_status row) "online"); [|destruct (String.eqb (sys_status row) "offline")];
      reflexivity.
  - intros hb. reflexivity.
  - intros hb. reflexivity.
  - intros hb s0 Hs. unfold calculateStatusLevel. apply String.eqb_neq in Hs. rewrite Hs.
    destruct (String.eqb s0 "offline"); reflexivity.
  - intros Hnone. cbn zeta. unfold single. rewrite Hnone. split; reflexivity.
Qed.

Lemma classify_spec_witness :
  filter (fun r => String.eqb (system_id r) (targetSystemId (systemId (init None)))) [] = [] /\
  (statusLevel (fetchSystemStatus (init None) 7200000 (Response (Some row_online) false))
     = (if String.eqb (sys_status row_online) "online" then healthy else critical) /\
   (forall hb, fst (calculateStatusLevel 7200000 hb "online") = healthy) /\
   (forall hb, fst (calculateStatusLevel 7200000 hb "offline") = critical) /\
   (forall hb s, s <> "online" -> fst (calculateStatusLevel 7200000 hb s) = critical) /\
   (filter (fun r => String.eqb (system_id r) (targetSystemId (systemId (init None)))) [] = [] ->
    let st' := fetchSystemStatus (init None) 7200000
                 (single [] (targetSystemId (systemId (init None)))) in
    statusLevel st' = critical /\ lastSeenText st' = Literal "Never")).
Proof.
  split; [reflexivity|].
  exact (classify_spec (init None) 7200000 row_online []).
Defined.

Lemma calc_not_warning (now hb : Z) (s : string) :
  fst (calculateStatusLevel now hb s) <> warning.
Proof.
  unfold calculateStatusLevel.
  destruct (String.eqb s "online"); [|destruct (String.eqb s "offline")]; simpl; discriminate.
Qed.

Lemma step_not_warning (st : State) (ev : Event) :
  statusLevel st <> warning -> statusLevel (step st ev) <> warning.
Proof.
  intros H. destruct ev as [now o|now p|now|id]; simpl.
  - destruct o as [[row|] [|]|]; simpl; try discriminate; auto.
    unfold applyCalc. pose proof (calc_not_warning now (last_heartbeat row) (sys_status row)).
    destruct (calculateStatusLevel _ _ _). simpl in *. auto.
  - destruct p as [row|]; simpl; auto.
    destruct (String.eqb _ _); auto. unfold applyCalc.
    pose proof (calc_not_warning now (last_heartbeat row) (sys_status row)).
    destruct (calculateStatusLevel _ _ _). simpl in *. auto.
  - unfold onTick. destruct (systemStatus st) as [row|]; auto.
    destruct (String.eqb _ _); auto.
    pose proof (calc_not_warning now (last_heartbeat row) (sys_status row)).
    destruct (calculateStatusLevel _ _ _). simpl in *. auto.
  - discriminate.
Qed.

Lemma run_not_warning (evs : list Event) (st : State) :
  statusLevel st <> warning -> statusLevel (run st evs) <> warning.
Proof.
  revert st. induction evs as [|ev evs IH]; intros st H; simpl; auto.
  apply IH. apply step_not_warning. exact H.
Qed.

(** Claim C8: starting from the initial [critical] state, no sequence of
    fetch results, subscription payloads, timer ticks and [systemId]
    changes sets the level to [warning]. *)
Theorem warning_unreachable (sid : option string) (evs : list Event) :
  statusLevel (run (init sid) evs) <> warning.
Proof. apply run_not_warning. discriminate. Qed.

End MonitorFacts.

Module MarkerFacts.
Import Markers MarkerContract Fixtures.

Lemma occupancyColor_threshold (p : Q) : occupancyColor p = thresholdColor p.
Proof.
  unfold occupancyColor, thresholdColor.
  destruct (Qle_bool p 80) eqn:E80; destruct (Qle_bool p 50) eqn:E50; simpl; auto.
  apply Qle_bool_iff in E50. exfalso.
  assert (H : Qle_bool p 80 = true) by (apply Qle_bool_iff; eapply Qle_trans; [exact E50|];
    unfold Qle; simpl; lia).
  congruence.
Qed.

Lemma addAreaMarker_app (layer : list Marker) (oa : option AreaValue) :
  addAreaMarker layer oa = (layer ++ markerOf oa)%list.
Proof.
  destruct oa as [a|]; simpl; [|rewrite app_nil_r; reflexivity].
  unfold truthyQ, truthyS. rewrite !Bool.negb_involutive.
  destruct (Qeq_bool (av_lat a) 0 || Qeq_bool (av_lng a) 0 || String.eqb (av_name a) "");
    simpl; [rewrite app_nil_r; reflexivity|].
  destruct (av_freeSlots a); [|rewrite app_nil_r]; rewrite ?occupancyColor_threshold; reflexivity.
Qed.

Lemma fold_markers (l : list (option AreaValue)) (layer : list Marker) :
  fold_left addAreaMarker l layer = (layer ++ flat_map markerOf l)%list.
Proof.
  revert layer. induction l as [|oa l IH]; intros layer; simpl.
  - rewrite app_nil_r. reflexivity.
  - rewrite IH, addAreaMarker_app, app_assoc. reflexivity.
Qed.

(** Claim C10: the marker loop produces, in order, one marker per area whose
    [lat], [lng] and [name] are truthy and whose [freeSlots] is not null,
    coloured red above 80 %, amber above 50 %, green otherwise, and
    labelled with the free-slot count; every other area (a latitude or
    longitude equal to 0, an empty name, a null [freeSlots]) is skipped. *)
Theorem markerLoop_spec (parkingAreas : list (option AreaValue)) :
  markerLoop parkingAreas = flat_map markerOf parkingAreas /\
  (forall a layer,
     (av_lat a == 0 \/ av_lng a == 0 \/ av_name a = "" \/ av_freeSlots a = None)%Q ->
     addAreaMarker layer (Some a) = layer) /\
  (forall p, (80 < p)%Q -> occupancyColor p = "#EF4444") /\
  (forall p, (50 < p)%Q -> (p <= 80)%Q -> occupancyColor p = "#F59E0B") /\
  (forall p, (p <= 50)%Q -> occupancyColor p = "#10B981").
Proof.
  split; [unfold markerLoop; rewrite fold_markers; reflexivity|].
  split; [|split; [|split]].
  - intros a layer H. rewrite addAreaMarker_app. unfold markerOf.
    destruct H as [H|[H|[H|H]]].
    + apply Qeq_bool_iff in H. rewrite H. simpl. apply app_nil_r.
    + apply Qeq_bool_iff in H. rewrite H, Bool.orb_true_r. simpl. apply app_nil_r.
    + rewrite H, !Bool.orb_true_r. simpl. apply app_nil_r.
    + rewrite H. destruct (_ || _ || _); apply app_nil_r.
  - intros p H. unfold occupancyColor.
    assert (E : Qle_bool p 80 = false).
    { destruct (Qle_bool p 80) eqn:E; auto. apply Qle_bool_iff in E.
      exfalso. apply (Qlt_not_le _ _ H E). }
    rewrite E. reflexivity.
  - intros p H1 H2. unfold occupancyColor.
    assert (E : Qle_bool p 50 = false).
    { destruct (Qle_bool p 50) eqn:E; auto. apply Qle_bool_iff in E.
      exfalso. apply (Qlt_not_le _ _ H1 E). }
    apply Qle_bool_iff in H2. rewrite H2, E. reflexivity.
  - intros p H. unfold occupancyColor.
    assert (E : Qle_bool p 80 = true).
    { apply Qle_bool_iff. eapply Qle_trans; [exact H|]. unfold Qle; simpl; lia. }
    apply Qle_bool_iff in H. rewrite E, H. reflexivity.
Qed.

Lemma markerLoop_spec_witness :
  (av_lat area_zero_lat == 0)%Q /\
  markerLoop [Some area_ok; Some area_zero_lat; None]
    = [mkMarker "a1" (129 # 10) (777 # 10) "#EF4444" 4] /\
  (markerLoop [Some area_ok; Some area_zero_lat; None]
     = flat_map markerOf [Some area_ok; Some area_zero_lat; None] /\
   (forall a layer,
      (av_lat a == 0 \/ av_lng a == 0 \/ av_name a = "" \/ av_freeSlots a = None)%Q ->
      addAreaMarker layer (Some a) = layer) /\
   (forall p, (80 < p)%Q -> occupancyColor p = "#EF4444") /\
   (forall p, (50 < p)%Q -> (p <= 80)%Q -> occupancyColor p = "#F59E0B") /\
   (forall p, (p <= 50)%Q -> occupancyColor p = "#10B981")).
Proof.
  split; [reflexivity|]. split; [reflexivity|].
  exact (markerLoop_spec [Some area_ok; Some area_zero_lat; None]).
Defined.

(** Claim C9: one click with no second click before the 300 ms timer fires
    opens the popup and selects no area; a second click before the timer
    fires cancels it and selects the area exactly once, with no popup from
    the handler. *)
Theorem single_vs_double_click (areaId : string) (t1 t2 : Z)
    (Hwin : (t2 < t1 + 300)%Z) :
  snd (runClicks true areaId idle [t1]) = [OpenPopup] /\
  snd (runClicks true areaId idle [t1; t2]) = [AreaSelect areaId] /\
  clickTimeout (fst (runClicks true areaId idle [t1; t2])) = None.
Proof.
  assert (E : (t1 + 300 <=? t2)%Z = false) by (apply Z.leb_gt; lia).
  unfold runClicks, fireDue, handleMarkerClick; simpl.
  rewrite Z.leb_refl, E. repeat split; reflexivity.
Qed.

Lemma single_vs_double_click_witness :
  (100 < 0 + 300)%Z /\
  (snd (runClicks true "a1" idle [0%Z]) = [OpenPopup] /\
   snd (runClicks true "a1" idle [0%Z; 100%Z]) = [AreaSelect "a1"] /\
   clickTimeout (fst (runClicks true "a1" idle [0%Z; 100%Z])) = None).
Proof.
  split; [reflexivity|].
  apply (single_vs_double_click "a1" 0 100). reflexivity.
Defined.

End MarkerFacts.

Module ExtraOccupancyFacts.
Import Occupancy Fixtures.

Lemma perm_filter_length (f : Slot -> bool) (l l' : list Slot) :
  Permutation l l' -> length (filter f l) = length (filter f l').
Proof.
  induction 1 as [|x l l' _ IH|x y l|l l' l'' _ IH1 _ IH2]; simpl.
  - reflexivity.
  - destruct (f x); simpl; auto.
  - destruct (f x), (f y); reflexivity.
  - congruence.
Qed.

(** The aggregation depends only on the multiset of slots, not on the
    order the backend returns them in. *)
Theorem aggregate_perm (a : ParkingArea) (l l' : list Slot) (H : Permutation l l') :
  aggregate a l = aggregate a l'.
Proof.
  unfold aggregate, areaWithOccupancy, count_status; simpl.
  rewrite !(perm_filter_length _ l l' H). reflexivity.
Qed.

Lemma aggregate_perm_witness :
  Permutation [sl "free"; sl "occupied"] [sl "occupied"; sl "free"] /\
  aggregate area10 [sl "free"; sl "occupied"] = aggregate area10 [sl "occupied"; sl "free"].
Proof.
  assert (H : Permutation [sl "free"; sl "occupied"] [sl "occupied"; sl "free"])
    by apply perm_swap.
  split; [exact H | exact (aggregate_perm area10 _ _ H)].
Defined.

(** A slot whose status is none of ['free'], ['occupied'], ['reserved']
    changes nothing in the aggregation: it is dropped, wherever it is. *)
Theorem aggregate_ignores_unknown (a : ParkingArea) (l1 l2 : list Slot) (s : Slot)
    (Hf : status s <> "free") (Ho : status s <> "occupied") (Hr : status s <> "reserved") :
  aggregate a (l1 ++ s :: l2) = aggregate a (l1 ++ l2).
Proof.
  unfold aggregate, areaWithOccupancy, count_status; simpl.
  rewrite !filter_app. simpl.
  apply String.eqb_neq in Hf, Ho, Hr. rewrite Hf, Ho, Hr. reflexivity.
Qed.

Lemma aggregate_ignores_unknown_witness :
  status (sl "maintenance") <> "free" /\ status (sl "maintenance") <> "occupied" /\
  status (sl "maintenance") <> "reserved" /\
  aggregate area10 ([sl "free"] ++ sl "maintenance" :: [sl "occupied"])
  = aggregate area10 ([sl "free"] ++ [sl "occupied"]).
Proof.
  split; [simpl; discriminate|]. split; [simpl; discriminate|].
  split; [simpl; discriminate|].
  apply aggregate_ignores_unknown; simpl; discriminate.
Defined.

(** MapView's fetch: on an areas error the previous list and a toast; on
    success one entry per fetched area, in order, carrying that area's
    record; an area whose slot query fails is reported with zero counts
    and 0 %. *)
Theorem fetch_areas_spec (prev : list ParkingAreaWithOccupancy) (l : list ParkingArea)
    (slotsFor : string -> SlotsResponse) :
  (forall data, MapViewPage.fetchParkingAreasWithOccupancy prev data true slotsFor
                = (prev, [ToastError "Failed to load parking areas"])) /\
  map area (fst (MapViewPage.fetchParkingAreasWithOccupancy prev (Some l) false slotsFor)) = l /\
  (forall a, In a l -> slots_error (slotsFor (area_id a)) = true ->
     In (mkAreaOcc a 0 0 0 0%Q)
        (fst (MapViewPage.fetchParkingAreasWithOccupancy prev (Some l) false slotsFor))).
Proof.
  split; [intros; reflexivity|]. simpl. split.
  - rewrite map_map. unfold areaWithOccupancy.
    induction l as [|x l IH]; simpl; [reflexivity|].
    destruct (slots_error (slotsFor (area_id x))); simpl; rewrite IH; reflexivity.
  - intros a Hin He. apply in_map_iff. exists a. split; [|exact Hin].
    unfold areaWithOccupancy. rewrite He. reflexivity.
Qed.

End ExtraOccupancyFacts.

Module ExtraDashboardFacts.
Import Fixtures.

(** The Dashboard's occupancy cards show the same three counts that the
    MapView aggregation computes for the same slot list, and they add up to
    at most the number of slots. *)
Theorem occupancyData_agrees (a : ParkingArea) (slots : list Slot) :
  let r := Occupancy.aggregate a slots in
  DashboardView.occupancyData slots = (freeSlots r, occupiedSlots r, reservedSlots r) /\
  (let '(f, o, rs) := DashboardView.occupancyData slots in f + o + rs <= length slots)%nat.
Proof.
  split; [reflexivity|]. apply OccupancyFacts.count3_le.
Qed.

(** After the areas are fetched, the selection is either kept or moved to
    the id of a fetched area; an [area] URL parameter naming a fetched area
    wins; with nothing selected and no such parameter the first fetched
    area is selected; a failed fetch keeps the selection and toasts. *)
Theorem fetchParkingAreas_selection (sel : string) (url : option string)
    (d : list ParkingArea) :
  (forall data, snd (fst (DashboardView.fetchParkingAreasDone sel url data true)) = sel) /\
  (let '(pa, sel', _) := DashboardView.fetchParkingAreasDone sel url (Some d) false in
   pa = Some d /\
   (sel' = sel \/ exists a, In a d /\ area_id a = sel') /\
   (forall u, url = Some u -> u <> "" -> (exists a, In a d /\ area_id a = u) -> sel' = u) /\
   (sel = "" ->
    (forall u, url = Some u -> u <> "" -> ~ exists a, In a d /\ area_id a = u) ->
    forall a0 rest, d = a0 :: rest -> sel' = area_id a0)).
Proof.
  split; [intros; reflexivity|].
  unfold DashboardView.fetchParkingAreasDone.
  destruct url as [u|].
  - destruct (String.eqb u "") eqn:Eu.
    + apply String.eqb_eq in Eu. subst u.
      destruct d as [|a0 rest].
      * repeat split; auto. intros u Hu Hne. inversion Hu; subst; contradiction.
        intros _ _ a1 r1 Hd; discriminate.
      * destruct (String.eqb sel "") eqn:Es.
        -- repeat split; auto.
           ++ right. exists a0. simpl; auto.
           ++ intros u Hu Hne. inversion Hu; subst; contradiction.
           ++ intros _ _ a1 r1 Hd. inversion Hd; subst; reflexivity.
        -- repeat split; auto.
           ++ intros u Hu Hne. inversion Hu; subst; contradiction.
           ++ intros Hs. apply String.eqb_neq in Es. contradiction.
    + destruct (find (fun a => String.eqb (area_id a) u) d) as [x|] eqn:Ef.
      * apply find_some in Ef. destruct Ef as [Hx Hux]. apply String.eqb_eq in Hux.
        repeat split; auto.
        -- right. exists x. auto.
        -- intros u' Hu' _ _. inversion Hu'; subst; reflexivity.
        -- intros _ Hno. exfalso.
           apply (Hno u); [reflexivity | apply String.eqb_neq; exact Eu | exists x; auto].
      * assert (Hnone : ~ exists a, In a d /\ area_id a = u).
        { intros [a [Ha Hau]]. pose proof (find_none _ _ Ef a Ha) as Hf. simpl in Hf.
          apply String.eqb_neq in Hf. contradiction. }
        destruct d as [|a0 rest].
        -- repeat split; auto.
           ++ intros u' Hu' _ Hex. inversion Hu'; subst. contradiction.
           ++ intros _ _ a1 r1 Hd; discriminate.
        -- destruct (String.eqb sel "") eqn:Es.
           ++ repeat split; auto.
              ** right. exists a0. simpl; auto.
              ** intros u' Hu' _ Hex. inversion Hu'; subst. contradiction.
              ** intros _ _ a1 r1 Hd. inversion Hd; subst; reflexivity.
           ++ repeat split; auto.
              ** intros u' Hu' _ Hex. inversion Hu'; subst. contradiction.
              ** intros Hs. apply String.eqb_neq in Es. contradiction.
  - destruct d as [|a0 rest].
    + repeat split; auto. intros u Hu; discriminate. intros _ _ a1 r1 Hd; discriminate.
    + destruct (String.eqb sel "") eqn:Es.
      * repeat split; auto.
        -- right. exists a0. simpl; auto.
        -- intros u Hu; discriminate.
        -- intros _ _ a1 r1 Hd. inversion Hd; subst; reflexivity.
      * repeat split; auto.
        -- intros u Hu; discriminate.
        -- intros Hs. apply String.eqb_neq in Es. contradiction.
Qed.

(** Pressing a free slot that the grid shows opens the reservation dialog
    for that slot id, with the number of a slot carrying that id, and
    touches nothing else; [handleReserveSlot] with an id no listed slot has
    changes nothing (the dialog stays closed). *)
Theorem press_free_opens_dialog (st : Dashboard.State) (s : Slot)
    (Hin : In s (Dashboard.slots st)) (Hf : status s = "free") :
  let st' := Dashboard.pressSlot st s in
  Dashboard.reserveSlotId st' = slot_id s /\
  (exists s0, In s0 (Dashboard.slots st) /\ slot_id s0 = slot_id s /\
              Dashboard.selectedSlotNumber st' = slot_number s0) /\
  Dashboard.user st' = Dashboard.user st /\
  Dashboard.slots st' = Dashboard.slots st /\
  Dashboard.userReservations st' = Dashboard.userReservations st /\
  (forall id, (forall s1, In s1 (Dashboard.slots st) -> slot_id s1 <> id) ->
              Dashboard.handleReserveSlot st id = st).
Proof.
  cbn zeta. unfold Dashboard.pressSlot, SlotGrid.press, SlotGrid.disabled, SlotGrid.onClick.
  rewrite Hf. simpl. unfold Dashboard.handleReserveSlot.
  destruct (find (fun s0 => String.eqb (slot_id s0) (slot_id s)) (Dashboard.slots st))
    as [s0|] eqn:E.
  - apply find_some in E. destruct E as [Hs0 Hid]. apply String.eqb_eq in Hid.
    repeat split; auto.
    + exists s0. auto.
    + intros id Hno. destruct (find (fun s1 => String.eqb (slot_id s1) id) (Dashboard.slots st))
        as [s1|] eqn:E1; auto.
      apply find_some in E1. destruct E1 as [Hs1 Hid1]. apply String.eqb_eq in Hid1.
      exfalso. exact (Hno s1 Hs1 Hid1).
  - exfalso. pose proof (find_none _ _ E s Hin) as H. simpl in H.
    rewrite String.eqb_refl in H. discriminate.
Qed.

Lemma press_free_opens_dialog_witness :
  In (mkSlot "s1" "a" 1 "free") (Dashboard.slots st0) /\
  status (mkSlot "s1" "a" 1 "free") = "free" /\
  (let st' := Dashboard.pressSlot st0 (mkSlot "s1" "a" 1 "free") in
   Dashboard.reserveSlotId st' = slot_id (mkSlot "s1" "a" 1 "free") /\
   (exists s0, In s0 (Dashboard.slots st0) /\ slot_id s0 = slot_id (mkSlot "s1" "a" 1 "free") /\
               Dashboard.selectedSlotNumber st' = slot_number s0) /\
   Dashboard.user st' = Dashboard.user st0 /\
   Dashboard.slots st' = Dashboard.slots st0 /\
   Dashboard.userReservations st' = Dashboard.userReservations st0 /\
   (forall id, (forall s1, In s1 (Dashboard.slots st0) -> slot_id s1 <> id) ->
               Dashboard.handleReserveSlot st0 id = st0)).
Proof.
  split; [simpl; auto|]. split; [reflexivity|].
  apply press_free_opens_dialog; [simpl; auto | reflexivity].
Defined.




(** A slot re-fetch keeps an open dialog open, and confirming it then
    still inserts the reservation and marks the slot reserved, whatever the
    re-fetched statuses are: the handler does not re-check that the slot is
    still free.  A failed re-fetch keeps the slot list. *)
Theorem refetch_then_confirm (st : Dashboard.State) (uid : string) (d : list Slot)
    (t0 t1 : string)
    (Hu : Dashboard.user st = Some uid) (Hr : Dashboard.reserveSlotId st <> "") :
  let st1 := fst (Dashboard.fetchSlotsDone st (Some d) false) in
  Dashboard.slots st1 = d /\
  Dashboard.reserveSlotId st1 = Dashboard.reserveSlotId st /\
  snd (fst (Dashboard.handleConfirmReservation st1 t0 t1 false))
    = [InsertReservation uid (Dashboard.reserveSlotId st) t0 t1 "active";
       UpdateSlotStatus (Dashboard.reserveSlotId st) "reserved"] /\
  (forall data, fst (Dashboard.fetchSlotsDone st data true) = st).
Proof.
  cbn zeta. simpl. split; [reflexivity|]. split; [reflexivity|].
  split; [|intros; reflexivity].
  unfold Dashboard.handleConfirmReservation. simpl. rewrite Hu.
  apply String.eqb_neq in Hr. rewrite Hr. reflexivity.
Qed.

Lemma refetch_then_confirm_witness :
  Dashboard.user st0 = Some "u1" /\ Dashboard.reserveSlotId st0 <> "" /\
  (let st1 := fst (Dashboard.fetchSlotsDone st0 (Some [mkSlot "s1" "a" 1 "occupied"]) false) in
   Dashboard.slots st1 = [mkSlot "s1" "a" 1 "occupied"] /\
   Dashboard.reserveSlotId st1 = Dashboard.reserveSlotId st0 /\
   snd (fst (Dashboard.handleConfirmReservation st1 "t0" "t1" false))
     = [InsertReservation "u1" (Dashboard.reserveSlotId st0) "t0" "t1" "active";
        UpdateSlotStatus (Dashboard.reserveSlotId st0) "reserved"] /\
   (forall data, fst (Dashboard.fetchSlotsDone st0 data true) = st0)).
Proof.
  split; [reflexivity|]. split; [simpl; discriminate|].
  apply (refetch_then_confirm st0 "u1"); [reflexivity | simpl; discriminate].
Defined.

End ExtraDashboardFacts.

Module ExtraProfileFacts.
Import Profile ProfileView Fixtures.

(** The Profile screen splits the reservations into the active list and the
    history: every reservation is in exactly one of them, the two lengths
    add up to the total, and the history card shows at most 10 entries. *)
Theorem active_past_partition (rs : list Reservation) :
  (length (activeReservations rs) + length (pastReservations rs) = length rs)%nat /\
  (forall r, In r rs -> (In r (activeReservations rs) <-> ~ In r (pastReservations rs))) /\
  (length (shownHistory rs) <= 10)%nat.
Proof.
  split; [apply filter_length|]. split.
  - intros r Hin. unfold activeReservations, pastReservations.
    rewrite !filter_In.
    destruct (String.eqb (res_status r) "active"); simpl; split.
    + intros _ [_ H]. discriminate.
    + intros _. auto.
    + intros [_ H]. discriminate.
    + intros H. exfalso. apply H. auto.
  - apply firstn_le_length.
Qed.

(** A successful cancellation keeps the number of reservations, keeps every
    reservation with another id, and moves each reservation with the
    cancelled id into the history, marked ['cancelled']. *)
Theorem cancel_frame (rs : list Reservation) (rid sid : string) (slotError : bool) :
  let rs' := fst (fst (handleCancelReservation rs rid sid false slotError)) in
  length rs' = length rs /\
  (forall r, In r rs -> res_id r <> rid -> In r rs') /\
  (forall r, In r rs -> res_id r = rid -> In (cancelled r) (pastReservations rs')).
Proof.
  cbn zeta. simpl. split; [apply length_map|]. split.
  - intros r Hin Hne. apply in_map_iff. exists r. split; [|exact Hin].
    apply String.eqb_neq in Hne. rewrite Hne. reflexivity.
  - intros r Hin Heq. unfold pastReservations. apply filter_In. split; [|reflexivity].
    apply in_map_iff. exists r. split; [|exact Hin].
    rewrite Heq, String.eqb_refl. reflexivity.
Qed.

End ExtraProfileFacts.

Module ExtraMonitorFacts.
Import Monitor Fixtures.

(** A subscription payload for another system, or without a new row,
    leaves the indicator unchanged; a payload for the watched system is
    stored and classified. *)
Theorem payload_filter (st : State) (now : Z) (row : SystemStatus)
    (Hother : system_id row <> targetSystemId (systemId st)) :
  onPayload st now (Some row) = st /\
  onPayload st now None = st /\
  (forall row', system_id row' = targetSystemId (systemId st) ->
     systemStatus (onPayload st now (Some row')) = Some row' /\
     statusLevel (onPayload st now (Some row'))
       = (if String.eqb (sys_status row') "online" then healthy else critical)).
Proof.
  unfold onPayload. apply String.eqb_neq in Hother. rewrite Hother.
  split; [reflexivity|]. split; [reflexivity|].
  intros row' Heq. rewrite Heq, String.eqb_refl. unfold applyCalc, calculateStatusLevel.
  destruct (String.eqb (sys_status row') "online");
    [|destruct (String.eqb (sys_status row') "offline")]; split; reflexivity.
Qed.

Lemma payload_filter_witness :
  system_id Fixtures.row_other <> targetSystemId (systemId (init None)) /\
  onPayload (init None) 0 (Some Fixtures.row_other) = init None /\
  onPayload (init None) 0 None = init None /\
  (forall row', system_id row' = targetSystemId (systemId (init None)) ->
     systemStatus (onPayload (init None) 0 (Some row')) = Some row' /\
     statusLevel (onPayload (init None) 0 (Some row'))
       = (if String.eqb (sys_status row') "online" then healthy else critical)).
Proof.
  assert (H : system_id Fixtures.row_other <> targetSystemId (systemId (init None)))
    by (simpl; discriminate).
  split; [exact H | exact (payload_filter (init None) 0 Fixtures.row_other H)].
Defined.

Lemma calc_level_time_indep (now now' hb hb' : Z) (s : string) :
  fst (calculateStatusLevel now hb s) = fst (calculateStatusLevel now' hb' s).
Proof.
  unfold calculateStatusLevel.
  destruct (String.eqb s "online"); [|destruct (String.eqb s "offline")]; reflexivity.
Qed.

(** The 30 s timer never changes the level nor the stored record: after a
    record has been classified, re-deriving at any later time only
    refreshes the last-seen text. *)
Theorem tick_keeps_level (st : State) (t0 t1 : Z) (row : SystemStatus) :
  let s1 := applyCalc st t0 row in
  statusLevel (onTick s1 t1) = statusLevel s1 /\
  systemStatus (onTick s1 t1) = systemStatus s1 /\
  systemId (onTick s1 t1) = systemId s1.
Proof.
  cbn zeta. unfold onTick, applyCalc.
  pose proof (calc_level_time_indep t1 t0 (last_heartbeat row) (last_heartbeat row)
                (sys_status row)) as E.
  destruct (calculateStatusLevel t0 (last_heartbeat row) (sys_status row)) as [l0 x0] eqn:E0.
  simpl. destruct (String.eqb (sys_status row) ""); [auto|].
  destruct (calculateStatusLevel t1 (last_heartbeat row) (sys_status row)) as [l1 x1].
  simpl in *. auto.
Qed.

End ExtraMonitorFacts.

Module ExtraMapFacts.
Import Markers MapComponent Predicates Fixtures.


End ExtraMapFacts.

Module ExtraSlugFacts.
Import DashboardView Predicates.

Example slug_example :
  slug "Tech  Park" ++ slug (String (ascii_of_nat 9) "Whitefield") = "tech_park_whitefield".
Proof. reflexivity. Qed.

Lemma lowerChar_idem (c : ascii) : lowerChar (lowerChar c) = lowerChar c.
Proof.
  destruct c as [b0 b1 b2 b3 b4 b5 b6 b7];
  destruct b0, b1, b2, b3, b4, b5, b6, b7; vm_compute; reflexivity.
Qed.

Lemma toLowerCase_fixed (s : string) : forallChars lowerFixed (toLowerCase s) = true.
Proof.
  induction s as [|c r IH]; simpl; [reflexivity|].
  rewrite IH, Bool.andb_true_r. unfold lowerFixed. apply Ascii.eqb_eq. apply lowerChar_idem.
Qed.

Lemma replaceSpaces_pres (p : ascii -> bool) (Hp : p "_"%char = true) (b : bool) (t : string) :
  forallChars p t = true -> forallChars p (replaceSpaces b t) = true.
Proof.
  revert b. induction t as [|c r IH]; intros b H; simpl in *; [reflexivity|].
  apply andb_prop in H. destruct H as [Hc Hr].
  destruct (isSpace c); [destruct b|]; simpl; rewrite ?Hp, ?Hc; simpl; apply IH; exact Hr.
Qed.

Lemma replaceSpaces_noSpace (b : bool) (t : string) :
  forallChars notSpace (replaceSpaces b t) = true.
Proof.
  revert b. induction t as [|c r IH]; intros b; simpl; [reflexivity|].
  destruct (isSpace c) eqn:E; [destruct b|]; simpl; rewrite ?IH; unfold notSpace;
    rewrite ?E; reflexivity.
Qed.

Lemma toLowerCase_id (t : string) : forallChars lowerFixed t = true -> toLowerCase t = t.
Proof.
  induction t as [|c r IH]; intros H; simpl in *; [reflexivity|].
  apply andb_prop in H. destruct H as [Hc Hr]. unfold lowerFixed in Hc.
  apply Ascii.eqb_eq in Hc. rewrite Hc, IH; auto.
Qed.

Lemma replaceSpaces_id (b : bool) (t : string) :
  forallChars notSpace t = true -> replaceSpaces b t = t.
Proof.
  revert b. induction t as [|c r IH]; intros b H; simpl in *; [reflexivity|].
  apply andb_prop in H. destruct H as [Hc Hr]. unfold notSpace in Hc.
  destruct (isSpace c); [discriminate|]. rewrite IH; auto.
Qed.

(** The monitor id the Dashboard derives from an area name contains no
    whitespace and no upper-case letter, and deriving it again from its own
    result changes nothing; a selected area always yields an id (so the
    indicator never falls back to the default system). *)
Theorem slug_normal_form (nm : string) (a : ParkingArea) :
  forallChars notSpace (slug nm) = true /\
  forallChars lowerFixed (slug nm) = true /\
  slug (slug nm) = slug nm /\
  Monitor.targetSystemId (monitorSystemId (Some a)) = ("parking_monitor_" ++ slug (name a)) /\
  monitorSystemId None = None.
Proof.
  assert (Hn : forall t, forallChars notSpace (slug t) = true)
    by (intros t; apply replaceSpaces_noSpace).
  assert (Hl : forall t, forallChars lowerFixed (slug t) = true).
  { intros t. apply replaceSpaces_pres; [reflexivity|]. apply toLowerCase_fixed. }
  split; [apply Hn|]. split; [apply Hl|]. split.
  - unfold slug at 1. rewrite (toLowerCase_id _ (Hl nm)). apply replaceSpaces_id. apply Hn.
  - split; reflexivity.
Qed.

End ExtraSlugFacts.
